(** * ExZodus: contract-driven validation (router) and request building (client)

    A shallow embedding of the run-time behaviour of [ExZodusRouter] and
    [ExZodusClient].  The compile-time typing scaffolding of the package has
    no run-time content and is not modelled.  Zod schemas, the Express
    transport and Axios are external collaborators: a schema is an arbitrary
    [parse] function, the transport's [res.json] and the empty-shape schema
    [z.object({})] are section variables. *)

From Stdlib Require Import ZArith Ascii DecimalString.
From stdpp Require Import base option list strings gmap.

#[local] Set Warnings "-register-all,-clear-no-such-hyp".
Local Open Scope Z_scope.

(** ** JavaScript values and strings *)

Module JS.

(** Values that travel through the pipeline.  Numbers are the integers; an
    object is its list of own enumerable properties in [Object.keys] order
    (keys of a JavaScript object are pairwise distinct, see [wf_object]). *)
Inductive JsVal : Type :=
  | JUndefined
  | JNull
  | JBool (b : bool)
  | JNum (n : Z)
  | JStr (s : string)
  | JArr (items : list JsVal)
  | JObj (fields : list (string * JsVal)).

(** What a [throw] carries: a Zod validation failure (with its payload), a
    [TypeError] of the language, or any other thrown value. *)
Inductive Err : Type :=
  | ZodError (issues : JsVal)
  | TypeError (msg : string)
  | OtherError (v : JsVal).

(** Completion of a call that may throw. *)
Inductive Completion (A : Type) : Type :=
  | Return (a : A)
  | Throw (e : Err).
Arguments Return {A} a.
Arguments Throw {A} e.

Definition Object_keys {A} (fields : list (string * A)) : list string :=
  fields.*1.

Definition wf_object {A} (fields : list (string * A)) : Prop :=
  NoDup (Object_keys fields).

(** [obj[key]]: the first (and, for a well-formed object, only) binding. *)
Fixpoint get_prop {A} (fields : list (string * A)) (key : string) : option A :=
  match fields with
  | [] => None
  | (k, v) :: rest => if bool_decide (k = key) then Some v else get_prop rest key
  end.

(** [obj[key] = x]: overwrite in place, keeping the key's position; a new key
    is appended. *)
Fixpoint set_prop {A} (fields : list (string * A)) (key : string) (x : A)
  : list (string * A) :=
  match fields with
  | [] => [(key, x)]
  | (k, v) :: rest =>
      if bool_decide (k = key) then (k, x) :: rest
      else (k, v) :: set_prop rest key x
  end.

(** *** [String.prototype.replace] with a string pattern *)

Fixpoint startsWith (pat s : string) : bool :=
  match pat, s with
  | EmptyString, _ => true
  | String a pat', String b s' => bool_decide (a = b) && startsWith pat' s'
  | String _ _, EmptyString => false
  end.

Fixpoint drop_chars (n : nat) (s : string) : string :=
  match n, s with
  | O, _ => s
  | S n', String _ s' => drop_chars n' s'
  | S _, EmptyString => EmptyString
  end.

(** The text before and after the first occurrence of [pat] in [s]. *)
Fixpoint split_first (pat s : string) : option (string * string) :=
  if startsWith pat s then Some (EmptyString, drop_chars (String.length pat) s)
  else match s with
       | EmptyString => None
       | String c s' =>
           match split_first pat s' with
           | Some (before, after) => Some (String c before, after)
           | None => None
           end
       end.

(** The replacement text of one match, for a pattern without capture groups:
    [$$] is a dollar sign, [$&] the matched text, [$`] the text before the
    match, [$'] the text after it; any other [$] stands for itself. *)
Fixpoint GetSubstitution (matched before after replacement : string) : string :=
  match replacement with
  | EmptyString => EmptyString
  | String c tl =>
      if bool_decide (c = "$"%char) then
        match tl with
        | EmptyString => String c EmptyString
        | String d rest =>
            if bool_decide (d = "$"%char) then
              String "$" (GetSubstitution matched before after rest)
            else if bool_decide (d = "&"%char) then
              matched +:+ GetSubstitution matched before after rest
            else if bool_decide (d = "`"%char) then
              before +:+ GetSubstitution matched before after rest
            else if bool_decide (d = "'"%char) then
              after +:+ GetSubstitution matched before after rest
            else String c (GetSubstitution matched before after tl)
        end
      else String c (GetSubstitution matched before after tl)
  end.

(** [s.replace(pat, replacement)] for a string [pat]: only the first
    occurrence is replaced. *)
Definition replace (s pat replacement : string) : string :=
  match split_first pat s with
  | None => s
  | Some (before, after) =>
      before +:+ GetSubstitution pat before after replacement +:+ after
  end.

(** The first occurrence of [pat] in [s] splits it into [before] and [after]. *)
Definition first_occurrence (pat s before after : string) : Prop :=
  s = before +:+ pat +:+ after
  ∧ ∀ b a, s = b +:+ pat +:+ a → (String.length before ≤ String.length b)%nat.

Definition occurs (pat s : string) : Prop := ∃ b a, s = b +:+ pat +:+ a.


(** [n.toString()] for an integer [n] (decimal digits, a minus sign when
    negative); this is what JavaScript prints for integers below 10^21. *)
Definition Number_toString (n : Z) : string :=
  NilZero.string_of_int (Z.to_int n).

End JS.

(** ** The contract model ([type.ts]) *)

Module Contract.
Import JS.

(** All methods supported by the type system, the client and the router. *)
Inductive Method : Type := M_get | M_post | M_put | M_delete | M_patch.

Definition METHODS : list Method := [M_get; M_post; M_put; M_delete; M_patch].

Definition method_name (m : Method) : string :=
  match m with
  | M_get => "get" | M_post => "post" | M_put => "put"
  | M_delete => "delete" | M_patch => "patch"
  end.

(** A [z.ZodType]: the engine is external, only [parse] is ever called. *)
Record ZodType : Type := { parse : JsVal → Completion JsVal }.

(** Keys of [responses : Record<number | "default", z.ZodType>].  Indexing
    with a number reaches a [Code] key only: no number prints as "default". *)
Inductive ResponseKey : Type := Code (status : Z) | Default.

Definition response_key_eqb (a b : ResponseKey) : bool :=
  match a, b with
  | Code x, Code y => bool_decide (x = y)
  | Default, Default => true
  | _, _ => false
  end.

Fixpoint responses_lookup (responses : list (ResponseKey * ZodType))
    (key : ResponseKey) : option ZodType :=
  match responses with
  | [] => None
  | (k, schema) :: rest =>
      if response_key_eqb k key then Some schema else responses_lookup rest key
  end.

Record Parameters : Type := {
  path : option ZodType;
  query : option ZodType;
  header : option ZodType;
}.

Record Endpoint : Type := {
  request : option ZodType;
  parameters : Parameters;
  responses : list (ResponseKey * ZodType);
  errors : list (Z * ZodType);
}.

(** [Api = Record<string, Record<string, Endpoint>>]. *)
Definition apiDef_lookup (apiDef : gmap string (gmap string Endpoint))
    (path : string) (method : Method) : option Endpoint :=
  apiDef !! path ≫= λ byMethod, byMethod !! method_name method.

End Contract.

(** ** [ExZodusClient] *)

Module Client.
Import JS Contract.

(** A value of a [path] parameter: [string | number]. *)
Inductive PathValue : Type := PStr (s : string) | PNum (n : Z).

Definition toString (v : PathValue) : string :=
  match v with
  | PStr s => s
  | PNum n => Number_toString n
  end.

(** The optional [config] argument of the call operations; [cfg_path] is
    [None] when the object has no ["path"] key. *)
Record Config : Type := {
  cfg_path : option (list (string * PathValue));
  cfg_header : JsVal;
  cfg_query : JsVal;
  cfg_body : JsVal;
  cfg_responseType : JsVal;
}.

(** The object handed to [axios.request]; a field is [None] when the object
    literal does not mention it. *)
Record AxiosRequestConfig : Type := {
  method : Method;
  url : string;
  headers : option JsVal;
  params : option JsVal;
  data : option JsVal;
  responseType : option JsVal;
}.

Definition replacePathParams (url : string) (path : list (string * PathValue))
  : string :=
  foldl (λ modifiedUrl key,
           match get_prop path key with
           | Some value => replace modifiedUrl (":" +:+ key) (toString value)
           | None => modifiedUrl
           end)
        url (Object_keys path).

Definition buildAxiosConfig (method : Method) (path : string)
    (config : option Config) : AxiosRequestConfig :=
  match config with
  | None =>
      {| method := method; url := path;
         headers := None; params := None; data := None; responseType := None |}
  | Some config =>
      {| method := method;
         url := match cfg_path config with
                | Some p => replacePathParams path p
                | None => path
                end;
         headers := Some (cfg_header config);
         params := Some (cfg_query config);
         data := Some (cfg_body config);
         responseType := Some (cfg_responseType config) |}
  end.

(** The part of an [AxiosError] that [isErrorOf] reads. *)
Record ErrorConfig : Type := {
  err_method : option string;
  err_url : option string;
}.

Record ErrorResponse : Type := {
  status : Z;
  err_data : JsVal;
}.

(** A caught value: an instance of [AxiosError] (whose [config] and
    [response] may both be missing) or anything else. *)
Inductive Caught : Type :=
  | AxiosError (config : option ErrorConfig) (response : option ErrorResponse)
  | NotAxiosError (v : JsVal).

Definition isErrorOf (err : Caught) (method path : string) (code : Z) : bool :=
  match err with
  | NotAxiosError _ => false
  | AxiosError config response =>
      if negb (bool_decide (config ≫= err_method = Some method)) then false
      else if negb (bool_decide (config ≫= err_url = Some path)) then false
      else if negb (bool_decide (status <$> response = Some code)) then false
      else true
  end.

(** *** The reading of the request builder in the specification

    Every occurrence of [:name] is replaced, for each key of the path object.
    These two definitions follow the specification's words and are compared
    with [replacePathParams] below. *)



End Client.

(** ** [ExZodusRouter] *)

Module Router.
Import JS Contract.

(** The part of [express.Request] the middleware reads and writes. *)
Record Request : Type := {
  req_params : JsVal;
  req_query : JsVal;
  req_body : JsVal;
  req_headers : gmap string string;
}.

Definition set_params (v : JsVal) (req : Request) : Request :=
  {| req_params := v; req_query := req_query req;
     req_body := req_body req; req_headers := req_headers req |}.

Definition set_query (v : JsVal) (req : Request) : Request :=
  {| req_params := req_params req; req_query := v;
     req_body := req_body req; req_headers := req_headers req |}.

Definition set_body (v : JsVal) (req : Request) : Request :=
  {| req_params := req_params req; req_query := req_query req;
     req_body := v; req_headers := req_headers req |}.

(** The [res.json] slot of a response: Express's own method, or the closure
    installed by [responseValidator], which captures the route description
    and the method it replaced. *)
Inductive JsonMethod : Type :=
  | ExpressJson
  | ValidatingJson (routeDescription : Endpoint) (originalJson : JsonMethod).

(** The part of [express.Response] the middleware reads and writes; [wire]
    is what the transport has been given to transmit, oldest first. *)
Record Response : Type := {
  statusCode : Z;
  json : JsonMethod;
  wire : list (Z * JsVal);
}.

(** [res.status(code)] *)
Definition status (code : Z) (res : Response) : Response :=
  {| statusCode := code; json := json res; wire := wire res |}.

Definition set_json (impl : JsonMethod) (res : Response) : Response :=
  {| statusCode := statusCode res; json := impl; wire := wire res |}.

(** The body sent when a response is out of the API specification. *)
Definition out_of_spec_body : JsVal :=
  JObj [("status", JStr "Internal server error");
        ("message", JStr "Server generated response is out of API spec")].

(** *** The body of [try] in [requestValidator]: state and exceptions *)

Definition Try (A : Type) : Type := Request → Request * Completion A.

Definition ret {A} (a : A) : Try A := λ req, (req, Return a).

Definition bind {A B} (c : Try A) (k : A → Try B) : Try B :=
  λ req, match c req with
         | (req', Return a) => k a req'
         | (req', Throw e) => (req', Throw e)
         end.

Definition read {A} (f : Request → A) : Try A := λ req, (req, Return (f req)).

Definition assign (f : Request → Request) : Try unit :=
  λ req, (f req, Return ()).

Definition call {A} (c : Completion A) : Try A := λ req, (req, c).

Notation "x ⇐ c ;; k" := (bind c (λ x, k))
  (at level 100, c at next level, right associativity).
Notation "c ;;; k" := (bind c (λ _, k))
  (at level 100, right associativity).

(** [v === s] for a string literal [s]. *)
Definition strict_eq_string (v : JsVal) (s : string) : bool :=
  match v with
  | JStr t => bool_decide (t = s)
  | _ => false
  end.

(** One turn of the loop over [Object.keys(req.query)], on an object. *)
Definition coerce_key (q : list (string * JsVal)) (key : string)
  : list (string * JsVal) :=
  match get_prop q key with
  | Some v =>
      if strict_eq_string v "true" then set_prop q key (JBool true)
      else if strict_eq_string v "false" then set_prop q key (JBool false)
      else q
  | None => q
  end.

(** The same turn on an array, whose keys are its indices. *)
Definition coerce_index (q : list JsVal) (i : nat) : list JsVal :=
  match q !! i with
  | Some v =>
      if strict_eq_string v "true" then <[i := JBool true]> q
      else if strict_eq_string v "false" then <[i := JBool false]> q
      else q
  | None => q
  end.

(** The whole loop.  Express hands over an object; [Object.keys] throws on
    [undefined] and [null], and finds nothing to coerce in a primitive. *)
Definition coerceBooleans (q : JsVal) : Completion JsVal :=
  match q with
  | JObj fields => Return (JObj (foldl coerce_key fields (Object_keys fields)))
  | JArr items => Return (JArr (foldl coerce_index items (seq 0 (length items))))
  | JUndefined | JNull =>
      Throw (TypeError "Cannot convert undefined or null to object")
  | JBool _ | JNum _ | JStr _ => Return q
  end.

Section Middleware.

(** [z.object({})], built by the schema engine. *)
Variable z_object_empty : ZodType.

(** Express's own [res.json], applied to the response it is called on. *)
Variable express_json : Response → JsVal → Response * Completion unit.

Definition validatePath (routeDescription : Endpoint) : Try unit :=
  match path (parameters routeDescription) with
  | Some schema =>
      raw ⇐ read req_params;;
      parsed ⇐ call (parse schema raw);;
      assign (set_params parsed)
  | None =>
      raw ⇐ read req_params;;
      parsed ⇐ call (parse z_object_empty raw);;
      assign (set_params parsed)
  end.

Definition validateQuery (routeDescription : Endpoint) : Try unit :=
  match query (parameters routeDescription) with
  | Some schema =>
      raw ⇐ read req_query;;
      coerced ⇐ call (coerceBooleans raw);;
      assign (set_query coerced);;;
      parsed ⇐ call (parse schema coerced);;
      assign (set_query parsed)
  | None =>
      raw ⇐ read req_query;;
      parsed ⇐ call (parse z_object_empty raw);;
      assign (set_query parsed)
  end.

Definition is_json (req : Request) : bool :=
  bool_decide (req_headers req !! "content-type" = Some "application/json").

Definition validateBody (routeDescription : Endpoint) : Try unit :=
  json_content ⇐ read is_json;;
  match json_content, request routeDescription with
  | true, Some schema =>
      raw ⇐ read req_body;;
      parsed ⇐ call (parse schema raw);;
      assign (set_body parsed)
  | _, _ => ret ()
  end.

(** What a middleware does at its end: hand over to the next handler, or
    call the configured error handler. *)
Inductive Event : Type :=
  | Next (req : Request) (res : Response)
  | ErrorHandler (err : Err) (req : Request) (res : Response).

Definition event_request (ev : Event) : Request :=
  match ev with
  | Next req _ => req
  | ErrorHandler _ req _ => req
  end.

(** The middleware ends in exactly one of two calls: [next()] when the body
    of [try] completes, [config.errorHandler(err, req, res)] when it throws.
    [next()] itself returns: Express runs the handlers that follow under its
    own [try], so what they throw does not come back through this call. *)
Definition requestValidator (routeDescription : Endpoint)
    (req : Request) (res : Response) : list Event :=
  match (validatePath routeDescription;;;
         validateQuery routeDescription;;;
         validateBody routeDescription) req with
  | (req', Return _) => [Next req' res]
  | (req', Throw err) => [ErrorHandler err req' res]
  end.

(** The schemas the first two stages apply, and the value the query schema
    is applied to: the query after the loop when a query schema is
    declared, the query itself otherwise. *)
Definition path_schema (routeDescription : Endpoint) : ZodType :=
  match path (parameters routeDescription) with
  | Some schema => schema
  | None => z_object_empty
  end.

Definition query_schema (routeDescription : Endpoint) : ZodType :=
  match query (parameters routeDescription) with
  | Some schema => schema
  | None => z_object_empty
  end.

Definition query_input (routeDescription : Endpoint) (raw : JsVal)
  : Completion JsVal :=
  match query (parameters routeDescription) with
  | Some _ => coerceBooleans raw
  | None => Return raw
  end.

(** [x ?? body] *)
Definition nullish_or (x body : JsVal) : JsVal :=
  match x with
  | JUndefined | JNull => body
  | _ => x
  end.

(** [routeDescription.responses?.[res.statusCode]?.parse(body) ?? body] *)
Definition parseResponseBody (routeDescription : Endpoint) (res : Response)
    (body : JsVal) : Completion JsVal :=
  match responses_lookup (responses routeDescription) (Code (statusCode res)) with
  | Some schema =>
      match parse schema body with
      | Return parsed => Return (nullish_or parsed body)
      | Throw e => Throw e
      end
  | None => Return body
  end.

(** Calling whatever sits in the [json] slot. *)
Fixpoint call_json (impl : JsonMethod) (res : Response) (body : JsVal)
  : Response * Completion unit :=
  match impl with
  | ExpressJson => express_json res body
  | ValidatingJson routeDescription originalJson =>
      match parseResponseBody routeDescription res body with
      | Return parsedBody =>
          match call_json originalJson res parsedBody with
          | (res', Return r) => (res', Return r)
          | (res', Throw _) =>
              call_json originalJson (status 500 res') out_of_spec_body
          end
      | Throw _ => call_json originalJson (status 500 res) out_of_spec_body
      end
  end.

(** [res.json(body)] as a handler writes it. *)
Definition res_json (res : Response) (body : JsVal)
  : Response * Completion unit :=
  call_json (json res) res body.

Definition responseValidator (routeDescription : Endpoint)
    (req : Request) (res : Response) : list Event :=
  [Next req (set_json (ValidatingJson routeDescription (json res)) res)].

(** A handler that sends the given bodies one after the other, stopping at
    the first send that throws. *)
Fixpoint send_all (res : Response) (bodies : list JsVal)
  : Response * Completion unit :=
  match bodies with
  | [] => (res, Return ())
  | body :: rest =>
      match res_json res body with
      | (res', Return _) => send_all res' rest
      | (res', Throw e) => (res', Throw e)
      end
  end.

End Middleware.

(** *** Route registration *)

Section Registration.

(** The caller's handler functions. *)
Variable Handler : Type.

Inductive Middleware : Type :=
  | RequestValidator (routeDescription : Endpoint)
  | ResponseValidator (routeDescription : Endpoint)
  | UserHandler (h : Handler).

(** An argument of a registrar after the path: a function or an array of
    such arguments. *)
Inductive Arg : Type :=
  | Fn (m : Middleware)
  | Arr (items : list Arg).

(** Express registers the functions found in its arguments, arrays
    flattened, from left to right. *)
Fixpoint flatten_arg (a : Arg) : list Middleware :=
  match a with
  | Fn m => [m]
  | Arr items => mjoin (map flatten_arg items)
  end.

Definition flatten (args : list Arg) : list Middleware :=
  mjoin (map flatten_arg args).

Definition is_validator (m : Middleware) : bool :=
  match m with
  | RequestValidator _ | ResponseValidator _ => true
  | UserHandler _ => false
  end.

Record RouterConfig : Type := { attachResponseValidator : bool }.

(** The result of a registrar call, and the registrars of the underlying
    [express.Router()], one per method. *)
Variable Registered : Type.
Variable originalHandlerRegistrar : Method → string → list Arg → Registered.

Variable apiDef : gmap string (gmap string Endpoint).
Variable config : RouterConfig.

(** [router[method]] after [ExZodusRouter.new(apiDef, config)]. *)
Definition router_method (method : Method) (path : string)
    (handlers : list Arg) : Registered :=
  match apiDef_lookup apiDef path method with
  | None => originalHandlerRegistrar method path [Arr handlers]
  | Some routeDescription =>
      if attachResponseValidator config then
        originalHandlerRegistrar method path
          [Fn (RequestValidator routeDescription);
           Fn (ResponseValidator routeDescription);
           Arr handlers]
      else
        originalHandlerRegistrar method path
          [Fn (RequestValidator routeDescription); Arr handlers]
  end.

End Registration.

Arguments RequestValidator {Handler}.
Arguments ResponseValidator {Handler}.
Arguments UserHandler {Handler}.
Arguments Fn {Handler}.
Arguments Arr {Handler}.
Arguments flatten {Handler}.
Arguments flatten_arg {Handler}.
Arguments is_validator {Handler}.
Arguments router_method {Handler Registered}.

(** The only implicit coercion of the pipeline, on one query value. *)
Definition coerce_value (v : JsVal) : JsVal :=
  match v with
  | JStr s =>
      if bool_decide (s = "true") then JBool true
      else if bool_decide (s = "false") then JBool false
      else v
  | _ => v
  end.

(** The response as [responseValidator] leaves it. *)
Definition intercepted (routeDescription : Endpoint) (res : Response) : Response :=
  set_json (ValidatingJson routeDescription (json res)) res.

(** *** The reading of the response interceptor in the specification

    The schema for the exact status code, else the [default] schema.  This
    definition follows the specification's words and is compared with
    [parseResponseBody] below. *)
Definition spec_resolve_schema (routeDescription : Endpoint) (code : Z)
  : option ZodType :=
  match responses_lookup (responses routeDescription) (Code code) with
  | Some schema => Some schema
  | None => responses_lookup (responses routeDescription) Default
  end.


End Router.

(** ** Sample contracts, requests and transports *)

Module Samples.
Import JS Contract Client Router.

Definition config_of_path (p : list (string * PathValue)) : Config :=
  {| cfg_path := Some p; cfg_header := JUndefined; cfg_query := JUndefined;
     cfg_body := JUndefined; cfg_responseType := JUndefined |}.

Definition not_found : Caught :=
  AxiosError (Some {| err_method := Some "get"; err_url := Some "/users/:id" |})
             (Some {| Client.status := 404; err_data := JNull |}).

Definition network_failure : Caught :=
  AxiosError (Some {| err_method := Some "get"; err_url := Some "/users/:id" |})
             None.

(** A transport that records what it is given, with the status code at
    that moment, and never throws. *)
Definition transmit (res : Response) (body : JsVal) : Response * Completion unit :=
  ({| statusCode := statusCode res; json := json res;
      wire := wire res ++ [(statusCode res, body)] |}, Return ()).

Definition invalid (msg : string) : Completion JsVal :=
  Throw (ZodError (JStr msg)).

(** [z.object({})] with Zod's default of dropping undeclared keys. *)
Definition strip_unknown_keys : ZodType :=
  {| parse v := match v with JObj _ => Return (JObj []) | _ => invalid "object" end |}.

(** [z.object({ id: z.coerce.number().int() })], on the identifiers 7 and 8. *)
Definition id_schema : ZodType :=
  {| parse v :=
       match v with
       | JObj fields =>
           match get_prop fields "id" with
           | Some (JStr "7") => Return (JObj [("id", JNum 7)])
           | Some (JStr "8") => Return (JObj [("id", JNum 8)])
           | _ => invalid "id"
           end
       | _ => invalid "object"
       end |}.

(** [z.object({ verbose: z.boolean() })] *)
Definition verbose_schema : ZodType :=
  {| parse v :=
       match v with
       | JObj fields =>
           match get_prop fields "verbose" with
           | Some (JBool b) => Return (JObj [("verbose", JBool b)])
           | _ => invalid "verbose"
           end
       | _ => invalid "object"
       end |}.

(** [z.object({ id: z.number().int(), name: z.string() })] *)
Definition user_schema : ZodType :=
  {| parse v :=
       match v with
       | JObj fields =>
           match get_prop fields "id", get_prop fields "name" with
           | Some (JNum n), Some (JStr s) =>
               Return (JObj [("id", JNum n); ("name", JStr s)])
           | _, _ => invalid "user"
           end
       | _ => invalid "object"
       end |}.

(** [z.object({ name: z.string() })] *)
Definition name_schema : ZodType :=
  {| parse v :=
       match v with
       | JObj fields =>
           match get_prop fields "name" with
           | Some (JStr s) => Return (JObj [("name", JStr s)])
           | _ => invalid "name"
           end
       | _ => invalid "object"
       end |}.

Definition users_id_get : Endpoint :=
  {| request := None;
     parameters := {| path := Some id_schema; query := Some verbose_schema;
                      header := None |};
     responses := [(Code 200, user_schema); (Default, user_schema)];
     errors := [] |}.

Definition users_id_put : Endpoint :=
  {| request := Some name_schema;
     parameters := {| path := Some id_schema; query := Some verbose_schema;
                      header := None |};
     responses := [(Code 200, user_schema); (Default, user_schema)];
     errors := [] |}.

Definition paths : gmap string (gmap string Endpoint) :=
  {[ "/users/:id" := {[ "get" := users_id_get; "put" := users_id_put ]} ]}.

Definition json_headers : gmap string string :=
  {[ "content-type" := "application/json" ]}.

Definition form_headers : gmap string string :=
  {[ "content-type" := "application/x-www-form-urlencoded" ]}.

Definition make_request (id verbose : string) (body : JsVal)
    (headers : gmap string string) : Request :=
  {| req_params := JObj [("id", JStr id)];
     req_query := JObj [("verbose", JStr verbose)];
     req_body := body;
     req_headers := headers |}.

Definition fresh_response (code : Z) : Response :=
  {| statusCode := code; json := ExpressJson; wire := [] |}.

Definition john : JsVal :=
  JObj [("id", JNum 7); ("name", JStr "John Doe"); ("password", JStr "secret")].

Definition john_on_the_wire : JsVal :=
  JObj [("id", JNum 7); ("name", JStr "John Doe")].

End Samples.

(** ** The call operations of [ExZodusClient] *)

Module Calls.
Import JS Contract Client.

(** How [axios.request] settles: with a response, or rejected with a value. *)
Inductive AxiosResult : Type :=
  | Resolved (response : ErrorResponse)
  | RejectedWith (err : Caught).

(** How a call operation settles: with the data of the response, or rejected
    with the value [axios.request] was rejected with (nothing is caught). *)
Inductive Settled : Type :=
  | Fulfilled (data : JsVal)
  | Rejected (err : Caught).

(** What an error of Axios keeps of the request it belongs to: the method
    and the URL of the configuration the request was made with. *)
Definition config_of_request (axiosConfig : AxiosRequestConfig) : ErrorConfig :=
  {| err_method := Some (method_name (method axiosConfig));
     err_url := Some (url axiosConfig) |}.

Section Instance.

(** [this.axios.request] *)
Variable axios_request : AxiosRequestConfig → AxiosResult.

(** The common body of the five call operations. *)
Definition call (method : Method) (path : string) (config : option Config)
  : Settled :=
  match axios_request (buildAxiosConfig method path config) with
  | Resolved res => Fulfilled (err_data res)
  | RejectedWith err => Rejected err
  end.

Definition get : string → option Config → Settled := call M_get.
Definition post : string → option Config → Settled := call M_post.
Definition put : string → option Config → Settled := call M_put.
Definition patch : string → option Config → Settled := call M_patch.
Definition delete : string → option Config → Settled := call M_delete.

End Instance.

End Calls.

(** ** Further samples *)

Module MoreSamples.
Import JS Contract Client Router Samples Calls.

Definition event_response (ev : Event) : Response :=
  match ev with
  | Next _ res => res
  | ErrorHandler _ _ res => res
  end.

(** A transport that accepts one send per response and throws on any
    further one, leaving the response as it is. *)
Definition transmit_once (res : Response) (body : JsVal)
  : Response * Completion unit :=
  match wire res with
  | [] => transmit res body
  | _ :: _ => (res, Throw (OtherError (JStr "ERR_HTTP_HEADERS_SENT")))
  end.

(** A schema whose output is [undefined], as [z.any().transform(() => undefined)]. *)
Definition undefined_schema : ZodType := {| parse _ := Return JUndefined |}.

(** A schema that accepts nothing, as [z.never()]. *)
Definition never_schema : ZodType := {| parse _ := invalid "never" |}.

(** An endpoint without parameters and without a body. *)
Definition health_get : Endpoint :=
  {| request := None;
     parameters := {| path := None; query := None; header := None |};
     responses := [(Code 200, undefined_schema)];
     errors := [] |}.

(** [users_id_get] with a header schema no request satisfies. *)
Definition users_id_get_strict_header : Endpoint :=
  {| request := None;
     parameters := {| path := Some id_schema; query := Some verbose_schema;
                      header := Some never_schema |};
     responses := [(Code 200, user_schema); (Default, user_schema)];
     errors := [(404, never_schema)] |}.

(** A server that answers every request with 404. *)
Definition axios_404 (axiosConfig : AxiosRequestConfig) : AxiosResult :=
  RejectedWith
    (AxiosError (Some (config_of_request axiosConfig))
       (Some {| Client.status := 404; err_data := JNull |})).

Definition charset_headers : gmap string string :=
  {[ "content-type" := "application/json; charset=utf-8" ]}.

Definition already_sent : Response :=
  {| statusCode := 200; json := ValidatingJson users_id_get ExpressJson;
     wire := [(200, john_on_the_wire)] |}.

End MoreSamples.

(** ** Properties of the string primitives *)

Module JSFacts.
Import JS.

Lemma append_cons c (a b : string) : String c a +:+ b = String c (a +:+ b).
Proof. reflexivity. Qed.

Lemma append_nil (b : string) : "" +:+ b = b.
Proof. reflexivity. Qed.

Example replace_first_only :
  replace "/users/:id/:id" ":id" "7" = "/users/7/:id".
Proof. reflexivity. Qed.

Example replace_dollar_patterns :
  replace "/users/:id/x" ":id" "a$&b$$c$`d$'e$1" = "/users/a:idb$c/users/d/xe$1/x".
Proof. reflexivity. Qed.

Example Number_toString_samples :
  Number_toString 7 = "7" ∧ Number_toString 0 = "0" ∧ Number_toString (-12) = "-12".
Proof. repeat split; reflexivity. Qed.

Lemma startsWith_app pat rest : startsWith pat (pat +:+ rest) = true.
Proof.
  induction pat as [|c pat IH]; [done|].
  rewrite append_cons. simpl. rewrite bool_decide_eq_true_2 by done. exact IH.
Qed.

Lemma startsWith_inv pat s :
  startsWith pat s = true → s = pat +:+ drop_chars (String.length pat) s.
Proof.
  revert s. induction pat as [|c pat IH]; intros s H; simpl in *; [done|].
  destruct s as [|d s]; [done|].
  apply andb_prop in H as [Hc Hs]. apply bool_decide_eq_true_1 in Hc.
  subst d. rewrite append_cons. f_equal. by apply IH.
Qed.

Lemma drop_chars_app pat rest : drop_chars (String.length pat) (pat +:+ rest) = rest.
Proof. induction pat; [done|]. rewrite append_cons. simpl. auto. Qed.

Lemma app_assoc_string (a b c : string) : (a +:+ b) +:+ c = a +:+ b +:+ c.
Proof. induction a; [done|]. rewrite !append_cons. congruence. Qed.

(** [split_first] returns an occurrence, and no occurrence starts earlier. *)
Lemma split_first_Some pat s before after :
  split_first pat s = Some (before, after) →
  s = before +:+ pat +:+ after
  ∧ ∀ b a, s = b +:+ pat +:+ a → (String.length before ≤ String.length b)%nat.
Proof.
  revert before after. induction s as [|c s IH]; intros before after.
  - simpl. destruct (startsWith pat "") eqn:Hp; [|done].
    intros [= <- <-]. split.
    + by apply startsWith_inv in Hp.
    + intros; simpl; lia.
  - cbn [split_first]. destruct (startsWith pat (String c s)) eqn:Hp.
    + intros [= <- <-]. split.
      * by apply startsWith_inv in Hp.
      * intros; simpl; lia.
    + destruct (split_first pat s) as [[b0 a0]|] eqn:Hs; [|done].
      intros [= <- <-]. destruct (IH _ _ eq_refl) as [Heq Hmin]. split.
      * rewrite append_cons. by f_equal.
      * intros b a Hb. destruct b as [|d b].
        -- rewrite append_nil in Hb. rewrite Hb, startsWith_app in Hp. done.
        -- rewrite append_cons in Hb. injection Hb as -> Hb. simpl.
           specialize (Hmin _ _ Hb). lia.
Qed.

Lemma split_first_None pat s :
  split_first pat s = None → ∀ b a, s ≠ b +:+ pat +:+ a.
Proof.
  induction s as [|c s IH]; intros H b a Hb.
  - simpl in H. destruct (startsWith pat "") eqn:Hp; [done|].
    destruct b; [|done]. rewrite append_nil in Hb.
    by rewrite Hb, startsWith_app in Hp.
  - cbn [split_first] in H. destruct (startsWith pat (String c s)) eqn:Hp; [done|].
    destruct (split_first pat s) as [[b0 a0]|] eqn:Hs; [done|].
    destruct b as [|d b].
    + rewrite append_nil in Hb. by rewrite Hb, startsWith_app in Hp.
    + rewrite append_cons in Hb. injection Hb as -> Hb. by eapply IH.
Qed.

Lemma app_same_length_inj (b1 b2 r1 r2 : string) :
  b1 +:+ r1 = b2 +:+ r2 → String.length b1 = String.length b2 →
  b1 = b2 ∧ r1 = r2.
Proof.
  revert b2. induction b1 as [|c b1 IH]; intros [|d b2] H Hl; try done.
  rewrite !append_cons in H. injection H as -> H. injection Hl as Hl.
  destruct (IH _ H Hl) as [-> ->]. done.
Qed.

Lemma split_first_first_occurrence pat s before after :
  first_occurrence pat s before after →
  split_first pat s = Some (before, after).
Proof.
  intros [Heq Hmin]. destruct (split_first pat s) as [[b0 a0]|] eqn:Hs.
  - apply split_first_Some in Hs as [Heq0 Hmin0].
    assert (String.length b0 = String.length before) as Hl.
    { specialize (Hmin0 _ _ Heq). specialize (Hmin _ _ Heq0). lia. }
    rewrite Heq in Heq0.
    destruct (app_same_length_inj _ _ _ _ Heq0 (eq_sym Hl)) as [-> Hr].
    apply (inj (String.app pat)) in Hr. by subst.
  - exfalso. by eapply split_first_None.
Qed.


Lemma replace_absent s pat replacement :
  ¬ occurs pat s → replace s pat replacement = s.
Proof.
  intros Hno. unfold replace.
  destruct (split_first pat s) as [[b a]|] eqn:Hs; [|done].
  exfalso. apply Hno. exists b, a. by apply split_first_Some in Hs as [? _].
Qed.

Lemma replace_first s pat replacement before after :
  first_occurrence pat s before after →
  replace s pat replacement =
    before +:+ GetSubstitution pat before after replacement +:+ after.
Proof.
  intros H. unfold replace. by rewrite (split_first_first_occurrence _ _ _ _ H).
Qed.

Lemma get_prop_app_fresh {A} (pre rest : list (string * A)) key :
  key ∉ Object_keys pre → get_prop (pre ++ rest) key = get_prop rest key.
Proof.
  induction pre as [|[k v] pre IH]; [done|]. cbn. intros Hk.
  rewrite bool_decide_eq_false_2 by set_solver. apply IH. set_solver.
Qed.


Lemma set_prop_app_fresh {A} (pre rest : list (string * A)) k v x :
  k ∉ Object_keys pre →
  set_prop (pre ++ (k, v) :: rest) k x = pre ++ (k, x) :: rest.
Proof.
  induction pre as [|[k0 v0] pre IH]; cbn.
  - intros _. by rewrite bool_decide_eq_true_2.
  - intros Hk. rewrite bool_decide_eq_false_2 by set_solver.
    f_equal. apply IH. set_solver.
Qed.

End JSFacts.

(** ** Properties of [ExZodusClient] *)

Module ClientFacts.
Import JS Contract Client Samples JSFacts.










Example isErrorOf_not_found :
  isErrorOf not_found "get" "/users/:id" 404 = true
  ∧ isErrorOf not_found "get" "/users/:id" 500 = false
  ∧ isErrorOf not_found "post" "/users/:id" 404 = false
  ∧ isErrorOf not_found "get" "/users/7" 404 = false
  ∧ isErrorOf network_failure "get" "/users/:id" 404 = false.
Proof. repeat split; reflexivity. Qed.

(** What [isErrorOf] computes: [true] exactly for an Axios error whose
    request configuration carries that method and that URL and whose
    response carries that status; [false] for a value that is no Axios
    error and for an error without a response.  The URL compared is the one
    stored in the configuration of the failed request. *)
Lemma isErrorOf_exactly (err : Caught) (method path : string) (code : Z) :
  (isErrorOf err method path code = true
   ↔ ∃ config response,
       err = AxiosError (Some config) (Some response)
       ∧ err_method config = Some method
       ∧ err_url config = Some path
       ∧ Client.status response = code)
  ∧ (isErrorOf err method path code = false
     ↔ ¬ ∃ config response,
         err = AxiosError (Some config) (Some response)
         ∧ err_method config = Some method
         ∧ err_url config = Some path
         ∧ Client.status response = code)
  ∧ (∀ v, isErrorOf (NotAxiosError v) method path code = false)
  ∧ (∀ config, isErrorOf (AxiosError config None) method path code = false).
Proof.
  assert (isErrorOf err method path code = true
          ↔ ∃ config response,
              err = AxiosError (Some config) (Some response)
              ∧ err_method config = Some method
              ∧ err_url config = Some path
              ∧ Client.status response = code) as Hiff.
  { split.
    - destruct err as [[config|] [response|]|v]; cbn; try done;
        repeat case_bool_decide; cbn; try done.
      intros _. exists config, response. naive_solver.
    - intros (config & response & -> & Hm & Hu & Hs). cbn.
      rewrite Hm, Hu, Hs. by rewrite !bool_decide_eq_true_2. }
  split; [exact Hiff|]. split.
  { rewrite <- Hiff. destruct (isErrorOf err method path code); naive_solver. }
  split; [done|].
  intros config. cbn. by repeat case_bool_decide.
Qed.

(** C5 (the code misses it): the client's own call
    [get("/users/:id", { path: { id: 7 } })], answered with status 404, is
    rejected with an error whose configuration holds the URL built for the
    call, ["/users/7"].  [isErrorOf] compares the contract path with that
    URL, so for the method, the contract path and the status of this very
    call it answers [false]; it answers [true] for the substituted URL, which
    is no path of the contract. *)
Theorem isErrorOf_misses_call_with_path_parameter :
  Calls.call MoreSamples.axios_404 M_get "/users/:id"
    (Some (config_of_path [("id", PNum 7)]))
  = Calls.Rejected
      (AxiosError (Some {| err_method := Some "get"; err_url := Some "/users/7" |})
         (Some {| Client.status := 404; err_data := JNull |}))
  ∧ isErrorOf
      (AxiosError (Some {| err_method := Some "get"; err_url := Some "/users/7" |})
         (Some {| Client.status := 404; err_data := JNull |}))
      "get" "/users/:id" 404 = false
  ∧ isErrorOf
      (AxiosError (Some {| err_method := Some "get"; err_url := Some "/users/7" |})
         (Some {| Client.status := 404; err_data := JNull |}))
      "get" "/users/7" 404 = true.
Proof.
  split; [|split].
  - unfold Calls.call, MoreSamples.axios_404, Calls.config_of_request.
    reflexivity.
  - reflexivity.
  - reflexivity.
Qed.

End ClientFacts.

(** ** Properties of [ExZodusRouter] *)

Module RouterFacts.
Import JS Contract Router Samples JSFacts.

Lemma METHODS_complete (m : Method) : m ∈ METHODS.
Proof. destruct m; unfold METHODS; set_solver. Qed.

Section RequestValidator.

Variable z_object_empty : ZodType.

Lemma validatePath_eq d req :
  validatePath z_object_empty d req =
    match parse (path_schema z_object_empty d) (req_params req) with
    | Return p => (set_params p req, Return ())
    | Throw e => (req, Throw e)
    end.
Proof.
  unfold Router.validatePath, Router.path_schema.
  destruct (path (parameters d)); cbn;
    match goal with |- context [parse ?s ?v] => destruct (parse s v) end; done.
Qed.

Lemma validateQuery_eq d req :
  validateQuery z_object_empty d req =
    match query_input d (req_query req) with
    | Throw e => (req, Throw e)
    | Return q0 =>
        match parse (query_schema z_object_empty d) q0 with
        | Return q => (set_query q req, Return ())
        | Throw e => (set_query q0 req, Throw e)
        end
    end.
Proof.
  unfold Router.validateQuery, Router.query_schema, query_input.
  destruct (query (parameters d)); cbn.
  - destruct (coerceBooleans (req_query req)); cbn; [|done].
    match goal with |- context [parse ?s ?v] => destruct (parse s v) end; done.
  - match goal with |- context [parse ?s ?v] => destruct (parse s v) end;
      [done|]. by destruct req.
Qed.

Lemma validateBody_eq d req :
  validateBody d req =
    match is_json req, request d with
    | true, Some schema =>
        match parse schema (req_body req) with
        | Return b => (set_body b req, Return ())
        | Throw e => (req, Throw e)
        end
    | _, _ => (req, Return ())
    end.
Proof.
  unfold validateBody, bind, read. cbn.
  by destruct (is_json req), (request d).
Qed.

(** The decision tree of [requestValidator]: the stages in order, each
    writing its result into the request before the next one runs. *)
Lemma requestValidator_eq d req res :
  requestValidator z_object_empty d req res =
    match parse (path_schema z_object_empty d) (req_params req) with
    | Throw e => [ErrorHandler e req res]
    | Return p =>
        match query_input d (req_query req) with
        | Throw e => [ErrorHandler e (set_params p req) res]
        | Return q0 =>
            match parse (query_schema z_object_empty d) q0 with
            | Throw e => [ErrorHandler e (set_query q0 (set_params p req)) res]
            | Return q =>
                match is_json req, request d with
                | true, Some schema =>
                    match parse schema (req_body req) with
                    | Throw e =>
                        [ErrorHandler e (set_query q (set_params p req)) res]
                    | Return b =>
                        [Next (set_body b (set_query q (set_params p req))) res]
                    end
                | _, _ => [Next (set_query q (set_params p req)) res]
                end
            end
        end
    end.
Proof.
  unfold Router.requestValidator, bind.
  rewrite validatePath_eq.
  destruct (parse (path_schema z_object_empty d) (req_params req)) as [p|e]; [|done].
  rewrite validateQuery_eq. cbn [req_query set_params].
  destruct (query_input d (req_query req)) as [q0|e]; [|done].
  destruct (parse (query_schema z_object_empty d) q0) as [q|e]; [|done].
  rewrite validateBody_eq.
  change (is_json (set_query q (set_params p req))) with (is_json req).
  destruct (is_json req), (request d) as [schema|]; try done.
  cbn [req_body set_query set_params].
  destruct (parse schema (req_body req)); done.
Qed.

Lemma coerce_key_here pre k v rest :
k ∉ Object_keys pre →
coerce_key (pre ++ (k, v) :: rest) k = pre ++ (k, coerce_value v) :: rest.
Proof.
intros Hk. unfold coerce_key. rewrite get_prop_app_fresh by done.
cbn [get_prop]. rewrite bool_decide_eq_true_2 by done.
destruct v as [| |b|n|s|items|fields]; cbn [strict_eq_string coerce_value];
  try done.
destruct (bool_decide (s = "true")); [by rewrite set_prop_app_fresh|].
destruct (bool_decide (s = "false")); [by rewrite set_prop_app_fresh|done].
Qed.

(** On a well-formed object the loop coerces every value, each in its place. *)
Lemma foldl_coerce_key pre suf :
wf_object (pre ++ suf) →
foldl coerce_key (pre ++ suf) (Object_keys suf)
= pre ++ map (λ kv, (kv.1, coerce_value kv.2)) suf.
Proof.
revert pre. induction suf as [|[k v] suf IH]; intros pre Hwf; [done|].
cbn [Object_keys fmap list_fmap foldl map fst snd].
assert (k ∉ Object_keys pre) as Hfresh.
{ unfold wf_object, Object_keys in Hwf. rewrite fmap_app in Hwf.
  apply NoDup_app in Hwf as (_ & Hdisj & _). intros Hin.
  apply (Hdisj _ Hin). cbn. left. }
rewrite coerce_key_here by done.
specialize (IH (pre ++ [(k, coerce_value v)])).
rewrite <- !app_assoc in IH. cbn [app] in IH. apply IH.
unfold wf_object, Object_keys in *. by rewrite !fmap_app in *.
Qed.

Lemma coerceBooleans_object fields :
wf_object fields →
coerceBooleans (JObj fields)
= Return (JObj (map (λ kv, (kv.1, coerce_value kv.2)) fields)).
Proof.
intros Hwf. cbn [coerceBooleans]. do 2 f_equal.
exact (foldl_coerce_key [] fields Hwf).
Qed.

Lemma coerce_value_other v :
v ≠ JStr "true" → v ≠ JStr "false" → coerce_value v = v.
Proof.
intros Ht Hf. destruct v as [| |b|n|s|items|fields]; try done. cbn.
repeat case_bool_decide; congruence.
Qed.

(** C3: for an endpoint with a path-parameter schema, a request that passes
  every category reaches the next handler with [req.params] equal to the
  schema's parsed output (and the next handler is reached with nothing
  else in [req.params]); a request that fails the path, the query or the
  body category, tried in that order, produces one call of the error
  handler with the failure the schema raised and no call of the next
  handler. *)
Theorem requestValidator_path_schema d schema req res :
path (parameters d) = Some schema →
(∀ e, parse schema (req_params req) = Throw e →
   requestValidator z_object_empty d req res = [ErrorHandler e req res])
∧ (∀ p q0 e,
     parse schema (req_params req) = Return p →
     query_input d (req_query req) = Return q0 →
     parse (query_schema z_object_empty d) q0 = Throw e →
     requestValidator z_object_empty d req res
     = [ErrorHandler e (set_query q0 (set_params p req)) res])
∧ (∀ p q0 q body_schema e,
     parse schema (req_params req) = Return p →
     query_input d (req_query req) = Return q0 →
     parse (query_schema z_object_empty d) q0 = Return q →
     is_json req = true → request d = Some body_schema →
     parse body_schema (req_body req) = Throw e →
     requestValidator z_object_empty d req res
     = [ErrorHandler e (set_query q (set_params p req)) res])
∧ (∀ p q0 q,
     parse schema (req_params req) = Return p →
     query_input d (req_query req) = Return q0 →
     parse (query_schema z_object_empty d) q0 = Return q →
     (∀ body_schema, is_json req = true → request d = Some body_schema →
        ∃ b, parse body_schema (req_body req) = Return b) →
     ∃ req', requestValidator z_object_empty d req res = [Next req' res]
             ∧ req_params req' = p)
∧ (∀ req' res',
     Next req' res' ∈ requestValidator z_object_empty d req res →
     parse schema (req_params req) = Return (req_params req')
     ∧ requestValidator z_object_empty d req res = [Next req' res])
∧ length (requestValidator z_object_empty d req res) = 1%nat.
Proof.
intros Hpath. rewrite requestValidator_eq.
unfold Router.path_schema. rewrite Hpath.
split; [by intros e ->|].
split; [by intros p q0 e -> -> ->|].
split; [by intros p q0 q bs e -> -> -> -> -> ->|].
split.
{ intros p q0 q -> -> -> Hbody.
  destruct (is_json req), (request d) as [bs|]; eauto.
  destruct (Hbody bs eq_refl eq_refl) as [b ->]. eauto. }
split.
{ intros req' res'.
  repeat match goal with
         | |- context [match ?x with _ => _ end] => destruct x
         end;
    intros ?%list_elem_of_singleton; by simplify_eq. }
repeat match goal with |- context [match ?x with _ => _ end] => destruct x end;
  done.
Qed.

(** C7: for an endpoint with a query schema, the value handed to the schema
  is the query object in which every value that is exactly ["true"] has
  become [true], every value that is exactly ["false"] has become [false],
  and every other value, every key and the order of the keys are as they
  were. *)
Theorem query_true_false_coerced d schema req fields :
query (parameters d) = Some schema →
req_query req = JObj fields →
wf_object fields →
query_input d (req_query req)
= Return (JObj (map (λ kv, (kv.1, coerce_value kv.2)) fields))
∧ validateQuery z_object_empty d req
  = match parse schema (JObj (map (λ kv, (kv.1, coerce_value kv.2)) fields)) with
    | Return q => (set_query q req, Return ())
    | Throw e =>
        (set_query (JObj (map (λ kv, (kv.1, coerce_value kv.2)) fields)) req,
         Throw e)
    end
∧ coerce_value (JStr "true") = JBool true
∧ coerce_value (JStr "false") = JBool false
∧ ∀ v, v ≠ JStr "true" → v ≠ JStr "false" → coerce_value v = v.
Proof.
intros Hq Hfields Hwf.
assert (query_input d (req_query req)
        = Return (JObj (map (λ kv, (kv.1, coerce_value kv.2)) fields))) as Hin.
{ unfold query_input. rewrite Hq, Hfields. by apply coerceBooleans_object. }
split; [exact Hin|]. split.
{ rewrite validateQuery_eq, Hin. unfold Router.query_schema. by rewrite Hq. }
split; [done|]. split; [done|]. apply coerce_value_other.
Qed.

(** C8: once the path and query categories have passed, the body is parsed
  by the body schema exactly when the content type is
  ["application/json"] and the endpoint declares one; the request then
  carries the parsed body, or the error handler receives the failure.  In
  every other case the body stage does nothing, and whatever the outcome
  of the middleware the request it hands over has the body it came with. *)
Theorem body_validated_iff_json_and_schema d req res :
(∀ body_schema p q0 q,
   req_headers req !! "content-type" = Some "application/json" →
   request d = Some body_schema →
   parse (path_schema z_object_empty d) (req_params req) = Return p →
   query_input d (req_query req) = Return q0 →
   parse (query_schema z_object_empty d) q0 = Return q →
   requestValidator z_object_empty d req res
   = match parse body_schema (req_body req) with
     | Return b => [Next (set_body b (set_query q (set_params p req))) res]
     | Throw e => [ErrorHandler e (set_query q (set_params p req)) res]
     end)
∧ (req_headers req !! "content-type" ≠ Some "application/json"
   ∨ request d = None →
   validateBody d req = (req, Return ())
   ∧ Forall (λ ev, req_body (event_request ev) = req_body req)
       (requestValidator z_object_empty d req res)).
Proof.
split.
- intros bs p q0 q Hct Hbs Hp Hq0 Hq.
  rewrite requestValidator_eq, Hp, Hq0, Hq, Hbs.
  unfold is_json. by rewrite bool_decide_eq_true_2.
- intros Hno.
  assert (match is_json req, request d with
          | true, Some _ => False
          | _, _ => True
          end) as Hskip.
  { destruct Hno as [Hct| ->].
    - unfold is_json. rewrite bool_decide_eq_false_2 by done. done.
    - by destruct (is_json req). }
  split.
  + rewrite validateBody_eq.
    by destruct (is_json req), (request d).
  + rewrite requestValidator_eq.
    destruct (parse (path_schema z_object_empty d) (req_params req)) as [p|e];
      [|by repeat constructor].
    destruct (query_input d (req_query req)) as [q0|e];
      [|by repeat constructor].
    destruct (parse (query_schema z_object_empty d) q0) as [q|e];
      [|by repeat constructor].
    destruct (is_json req), (request d); try done; by repeat constructor.
Qed.

(** C10: nothing is rolled back.  When the query category fails, the error
  handler receives the request with [req.params] already replaced by the
  parsed path parameters (and with the query as the loop over its keys
  left it); when the body category fails, it receives the request with
  both [req.params] and [req.query] replaced by their parsed values and
  the body as it came. *)
Theorem requestValidator_no_rollback d req res p :
parse (path_schema z_object_empty d) (req_params req) = Return p →
(∀ q0 e,
   query_input d (req_query req) = Return q0 →
   parse (query_schema z_object_empty d) q0 = Throw e →
   requestValidator z_object_empty d req res
   = [ErrorHandler e
        {| req_params := p; req_query := q0;
           req_body := req_body req; req_headers := req_headers req |} res])
∧ (∀ q0 q body_schema e,
     query_input d (req_query req) = Return q0 →
     parse (query_schema z_object_empty d) q0 = Return q →
     req_headers req !! "content-type" = Some "application/json" →
     request d = Some body_schema →
     parse body_schema (req_body req) = Throw e →
     requestValidator z_object_empty d req res
     = [ErrorHandler e
          {| req_params := p; req_query := q;
             req_body := req_body req; req_headers := req_headers req |} res]).
Proof.
intros Hp. rewrite requestValidator_eq, Hp. split.
- by intros q0 e -> ->.
- intros q0 q bs e -> -> Hct -> ->.
  unfold is_json. by rewrite bool_decide_eq_true_2.
Qed.

End RequestValidator.

Section ResponseValidator.

Variable express_json : Response → JsVal → Response * Completion unit.

Lemma res_json_intercepting d orig res body :
  json res = ValidatingJson d orig →
  res_json express_json res body =
    match parseResponseBody d res body with
    | Return parsedBody =>
        match call_json express_json orig res parsedBody with
        | (res', Return r) => (res', Return r)
        | (res', Throw _) =>
            call_json express_json orig (status 500 res') out_of_spec_body
        end
    | Throw _ => call_json express_json orig (status 500 res) out_of_spec_body
    end.
Proof. intros Hjson. unfold res_json. by rewrite Hjson. Qed.



(** C1 (as the code has it): [responseValidator] puts the validating method
    in the [json] slot, and that method takes the schema the endpoint
    declares for the exact status code of the response at the moment of the
    send.  With such a schema the replaced method receives the schema's
    output (the handler's own body when the output is [null] or
    [undefined]), or, when the schema rejects the body, the fixed body under
    status 500.  When the status code has no entry, the replaced method
    receives the handler's body as it is: the [default] entry plays no part,
    whether it exists or not.  On a response that still had Express's own
    method, with the recording transport, this decides what goes on the
    wire. *)
Theorem response_schema_is_exact_status_only d req res body :
  responseValidator d req res = [Next req (intercepted d res)]
  ∧ json (intercepted d res) = ValidatingJson d (json res)
  ∧ (∀ schema parsed,
       responses_lookup (responses d) (Code (statusCode res)) = Some schema →
       parse schema body = Return parsed →
       res_json express_json (intercepted d res) body =
         match call_json express_json (json res) (intercepted d res)
                 match parsed with
                 | JUndefined | JNull => body
                 | _ => parsed
                 end with
         | (r, Return u) => (r, Return u)
         | (r, Throw _) =>
             call_json express_json (json res) (status 500 r)
               (JObj [("status", JStr "Internal server error");
                  ("message",
                   JStr "Server generated response is out of API spec")])
         end)
  ∧ (∀ schema e,
       responses_lookup (responses d) (Code (statusCode res)) = Some schema →
       parse schema body = Throw e →
       res_json express_json (intercepted d res) body =
         call_json express_json (json res) (status 500 (intercepted d res))
           (JObj [("status", JStr "Internal server error");
                  ("message",
                   JStr "Server generated response is out of API spec")]))
  ∧ (responses_lookup (responses d) (Code (statusCode res)) = None →
     res_json express_json (intercepted d res) body =
       match call_json express_json (json res) (intercepted d res) body with
       | (r, Return u) => (r, Return u)
       | (r, Throw _) =>
           call_json express_json (json res) (status 500 r)
             (JObj [("status", JStr "Internal server error");
                  ("message",
                   JStr "Server generated response is out of API spec")])
       end)
  ∧ (json res = ExpressJson →
     res_json transmit (intercepted d res) body =
       match responses_lookup (responses d) (Code (statusCode res)) with
       | Some schema =>
           match parse schema body with
           | Return parsed =>
               ({| statusCode := statusCode res;
                   json := ValidatingJson d ExpressJson;
                   wire := wire res
                           ++ [(statusCode res,
                                match parsed with
                                | JUndefined | JNull => body
                                | _ => parsed
                                end)] |}, Return ())
           | Throw _ =>
               ({| statusCode := 500;
                   json := ValidatingJson d ExpressJson;
                   wire := wire res
                           ++ [(500,
                                (JObj [("status", JStr "Internal server error");
                  ("message",
                   JStr "Server generated response is out of API spec")]))] |},
                Return ())
           end
       | None =>
           ({| statusCode := statusCode res;
               json := ValidatingJson d ExpressJson;
               wire := wire res ++ [(statusCode res, body)] |}, Return ())
       end).
Proof.
  split; [done|]. split; [done|]. split; [|split; [|split]].
  - intros schema parsed Hs Hp.
    rewrite (res_json_intercepting d (json res)) by done.
    unfold parseResponseBody. cbn [statusCode intercepted set_json].
    by rewrite Hs, Hp.
  - intros schema e Hs He.
    rewrite (res_json_intercepting d (json res)) by done.
    unfold parseResponseBody. cbn [statusCode intercepted set_json].
    by rewrite Hs, He.
  - intros Hnone.
    rewrite (res_json_intercepting d (json res)) by done.
    unfold parseResponseBody. cbn [statusCode intercepted set_json].
    by rewrite Hnone.
  - intros Hexpress. unfold res_json.
    cbn [json intercepted set_json call_json]. unfold parseResponseBody.
    change (statusCode (intercepted d res)) with (statusCode res).
    rewrite Hexpress. cbn [call_json].
    destruct (responses_lookup (responses d) (Code (statusCode res)))
      as [schema|]; [destruct (parse schema body) as [parsed|e]|];
      unfold transmit, intercepted, set_json, status; cbn;
      by rewrite ?Hexpress.
Qed.

(** C2 (as the code has it): when the body a handler sends fails the schema
    declared for the exact status code it set, the validating method sets
    the status to 500 and calls the method it replaced with the body
    [{ status: "Internal server error", message: "Server generated response
    is out of API spec" }]; the failure itself is dropped, so the handler
    sees whatever that call returns.  With a transport that records what it
    is given, the response transmitted is status 500 with exactly that body,
    whatever status the handler had set, and [res.json] returns normally. *)
Theorem out_of_spec_response_is_500 d orig res body schema e :
  json res = ValidatingJson d orig →
  responses_lookup (responses d) (Code (statusCode res)) = Some schema →
  parse schema body = Throw e →
  res_json express_json res body
  = call_json express_json orig
      {| statusCode := 500; json := json res; wire := wire res |}
      (JObj [("status", JStr "Internal server error");
                  ("message",
                   JStr "Server generated response is out of API spec")])
  ∧ (orig = ExpressJson →
     res_json transmit res body
     = ({| statusCode := 500; json := json res;
           wire := wire res
                   ++ [(500,
                        (JObj [("status", JStr "Internal server error");
                  ("message",
                   JStr "Server generated response is out of API spec")]))] |},
        Return ())).
Proof.
  intros Hjson Hs He.
  assert (parseResponseBody d res body = Throw e) as Hp.
  { unfold parseResponseBody. by rewrite Hs, He. }
  split.
  - by rewrite (res_json_intercepting d orig), Hp.
  - intros ->. unfold res_json. rewrite Hjson. cbn [call_json]. rewrite Hp.
    unfold transmit, status. cbn. by rewrite Hjson.
Qed.


End ResponseValidator.

Section Registration.

Variable Handler Registered : Type.
Variable originalHandlerRegistrar : Method → string → list (Arg Handler) → Registered.

(** For a path and method of the contract the request validator comes first,
    the response validator second when it is enabled, the caller's handlers
    last. *)
Lemma matched_route_registration apiDef config method path handlers d :
  apiDef_lookup apiDef path method = Some d →
  flatten
    (router_method (Handler := Handler) (λ _ _ args, args)
       apiDef config method path handlers)
  = RequestValidator d
    :: (if attachResponseValidator config then [ResponseValidator d] else [])
    ++ flatten handlers.
Proof.
  intros Hd. unfold router_method. rewrite Hd.
  destruct (attachResponseValidator config); unfold flatten; cbn;
    by rewrite app_nil_r.
Qed.

(** C9: for a path and method without an entry in the contract, the router's
    registrar calls the underlying registrar with the caller's handlers,
    passed as one array, and nothing else; the functions Express finds in
    these arguments are the caller's, in the caller's order, so the route is
    registered as by the underlying registrar itself. *)
Theorem unmatched_route_is_passed_through apiDef config method path handlers :
  apiDef_lookup apiDef path method = None →
  router_method originalHandlerRegistrar apiDef config method path handlers
  = originalHandlerRegistrar method path [Arr handlers]
  ∧ flatten [Arr handlers] = flatten handlers
  ∧ ((∀ args args', flatten args = flatten args' →
        originalHandlerRegistrar method path args
        = originalHandlerRegistrar method path args') →
     router_method originalHandlerRegistrar apiDef config method path handlers
     = originalHandlerRegistrar method path handlers).
Proof.
  intros Hnone.
  assert (flatten [Arr handlers] = flatten handlers) as Hflat.
  { unfold flatten. cbn. by rewrite app_nil_r. }
  unfold router_method. rewrite Hnone. split; [done|]. split; [done|].
  intros Hext. by apply Hext.
Qed.

End Registration.

(** C1 (as stated) fails: the endpoint declares schemas for 200 and for
    [default] only, the handler sets 403 and sends a string.  The reading of
    the specification resolves the [default] schema, which rejects the
    string; the interceptor transmits the string under status 403. *)
Lemma default_schema_is_not_consulted :
  match spec_resolve_schema users_id_get 403 with
  | Some schema => parse schema (JStr "leak")
  | None => Return (JStr "leak")
  end = invalid "object"
  ∧ res_json transmit (intercepted users_id_get (fresh_response 403)) (JStr "leak")
    = ({| statusCode := 403; json := ValidatingJson users_id_get ExpressJson;
          wire := [(403, JStr "leak")] |}, Return ()).
Proof. split; reflexivity. Qed.

(** C2 (as stated) fails where the resolved schema is the [default] one: the
    endpoint declares schemas for 200 and for [default] only, the handler
    sets 404 and sends [{ message: "User not found" }].  The [default]
    schema, which the reading of the specification resolves, rejects this
    body; the interceptor transmits it under status 404, not the fixed body
    under status 500. *)
Lemma out_of_spec_under_default_goes_out :
  match spec_resolve_schema users_id_get 404 with
  | Some schema => parse schema (JObj [("message", JStr "User not found")])
  | None => Return (JObj [("message", JStr "User not found")])
  end = invalid "user"
  ∧ res_json transmit (intercepted users_id_get (fresh_response 404))
      (JObj [("message", JStr "User not found")])
    = ({| statusCode := 404; json := ValidatingJson users_id_get ExpressJson;
          wire := [(404, JObj [("message", JStr "User not found")])] |},
       Return ()).
Proof. split; reflexivity. Qed.


(** A request for user 7 with [verbose=true]. *)
Lemma wf_verbose_query : wf_object [("verbose", JStr "true")].
Proof. apply NoDup_singleton. Defined.

Lemma response_schema_is_exact_status_only_witness :
  res_json transmit (intercepted users_id_get (fresh_response 200)) john
  = ({| statusCode := 200; json := ValidatingJson users_id_get ExpressJson;
        wire := [(200, JObj [("id", JNum 7); ("name", JStr "John Doe")])] |},
     Return ())
  ∧ res_json transmit (intercepted users_id_get (fresh_response 200))
      (JStr "leak")
    = ({| statusCode := 500; json := ValidatingJson users_id_get ExpressJson;
          wire := [(500,
                    (JObj [("status", JStr "Internal server error");
                  ("message",
                   JStr "Server generated response is out of API spec")]))] |},
       Return ())
  ∧ res_json transmit (intercepted users_id_get (fresh_response 403))
      (JStr "leak")
    = ({| statusCode := 403; json := ValidatingJson users_id_get ExpressJson;
          wire := [(403, JStr "leak")] |}, Return ()).
Proof.
  split; [|split].
  - exact (proj2 (proj2 (proj2 (proj2 (proj2
      (response_schema_is_exact_status_only transmit users_id_get
         (make_request "7" "true" JNull ∅) (fresh_response 200) john)))))
      eq_refl).
  - exact (proj2 (proj2 (proj2 (proj2 (proj2
      (response_schema_is_exact_status_only transmit users_id_get
         (make_request "7" "true" JNull ∅) (fresh_response 200)
         (JStr "leak"))))))
      eq_refl).
  - exact (proj2 (proj2 (proj2 (proj2 (proj2
      (response_schema_is_exact_status_only transmit users_id_get
         (make_request "7" "true" JNull ∅) (fresh_response 403)
         (JStr "leak"))))))
      eq_refl).
Defined.

Lemma out_of_spec_response_is_500_witness :
  res_json transmit (intercepted users_id_get (fresh_response 200)) (JStr "leak")
  = ({| statusCode := 500; json := ValidatingJson users_id_get ExpressJson;
        wire := [(500,
                  (JObj [("status", JStr "Internal server error");
                  ("message",
                   JStr "Server generated response is out of API spec")]))] |},
     Return ()).
Proof.
  exact (proj2
    (out_of_spec_response_is_500 transmit users_id_get ExpressJson
       (intercepted users_id_get (fresh_response 200)) (JStr "leak")
       user_schema (ZodError (JStr "object")) eq_refl eq_refl eq_refl)
    eq_refl).
Defined.

Lemma requestValidator_path_schema_witness :
  requestValidator strip_unknown_keys users_id_put
    (make_request "x" "true" JNull json_headers) (fresh_response 200)
  = [ErrorHandler (ZodError (JStr "id"))
       (make_request "x" "true" JNull json_headers) (fresh_response 200)]
  ∧ requestValidator strip_unknown_keys users_id_put
      (make_request "7" "maybe" JNull json_headers) (fresh_response 200)
    = [ErrorHandler (ZodError (JStr "verbose"))
         {| req_params := JObj [("id", JNum 7)];
            req_query := JObj [("verbose", JStr "maybe")];
            req_body := JNull; req_headers := json_headers |}
         (fresh_response 200)].
Proof.
  split.
  - exact (proj1
      (requestValidator_path_schema strip_unknown_keys users_id_put id_schema
         (make_request "x" "true" JNull json_headers) (fresh_response 200)
         eq_refl)
      (ZodError (JStr "id")) eq_refl).
  - exact (proj1 (proj2
      (requestValidator_path_schema strip_unknown_keys users_id_put id_schema
         (make_request "7" "maybe" JNull json_headers) (fresh_response 200)
         eq_refl))
      (JObj [("id", JNum 7)]) (JObj [("verbose", JStr "maybe")])
      (ZodError (JStr "verbose")) eq_refl eq_refl eq_refl).
Defined.


Lemma query_true_false_coerced_witness :
  validateQuery strip_unknown_keys users_id_get
    (make_request "7" "true" JNull ∅)
  = (set_query (JObj [("verbose", JBool true)])
       (make_request "7" "true" JNull ∅), Return ()).
Proof.
  exact (proj1 (proj2
    (query_true_false_coerced strip_unknown_keys users_id_get verbose_schema
       (make_request "7" "true" JNull ∅) [("verbose", JStr "true")]
       eq_refl eq_refl wf_verbose_query))).
Defined.

Lemma body_validated_iff_json_and_schema_witness :
  validateBody users_id_put (make_request "7" "true" (JStr "a=1") form_headers)
  = (make_request "7" "true" (JStr "a=1") form_headers, Return ())
  ∧ requestValidator strip_unknown_keys users_id_put
      (make_request "7" "true" (JObj [("name", JStr "Jane"); ("x", JNull)])
         json_headers) (fresh_response 200)
    = [Next {| req_params := JObj [("id", JNum 7)];
               req_query := JObj [("verbose", JBool true)];
               req_body := JObj [("name", JStr "Jane")];
               req_headers := json_headers |} (fresh_response 200)].
Proof.
  split.
  - apply (proj2
      (body_validated_iff_json_and_schema strip_unknown_keys users_id_put
         (make_request "7" "true" (JStr "a=1") form_headers)
         (fresh_response 200))).
    left. vm_compute. discriminate.
  - exact (proj1
      (body_validated_iff_json_and_schema strip_unknown_keys users_id_put
         (make_request "7" "true" (JObj [("name", JStr "Jane"); ("x", JNull)])
            json_headers) (fresh_response 200))
      name_schema (JObj [("id", JNum 7)]) (JObj [("verbose", JBool true)])
      (JObj [("verbose", JBool true)]) eq_refl eq_refl eq_refl eq_refl eq_refl).
Defined.

Lemma unmatched_route_is_passed_through_witness :
  router_method (λ _ _ args, flatten args) paths
    {| attachResponseValidator := true |} M_get "/health"
    [Fn (UserHandler 1%nat); Fn (UserHandler 2%nat)]
  = [UserHandler 1%nat; UserHandler 2%nat].
Proof.
  exact (proj2 (proj2
    (unmatched_route_is_passed_through nat (list (Middleware nat))
       (λ _ _ args, flatten args) paths {| attachResponseValidator := true |}
       M_get "/health" [Fn (UserHandler 1%nat); Fn (UserHandler 2%nat)]
       eq_refl))
    (λ _ _ H, H)).
Defined.

Lemma requestValidator_no_rollback_witness :
  requestValidator strip_unknown_keys users_id_put
    (make_request "7" "true" (JStr "Jane") json_headers) (fresh_response 200)
  = [ErrorHandler (ZodError (JStr "object"))
       {| req_params := JObj [("id", JNum 7)];
          req_query := JObj [("verbose", JBool true)];
          req_body := JStr "Jane"; req_headers := json_headers |}
       (fresh_response 200)].
Proof.
  exact (proj2
    (requestValidator_no_rollback strip_unknown_keys users_id_put
       (make_request "7" "true" (JStr "Jane") json_headers) (fresh_response 200)
       (JObj [("id", JNum 7)]) eq_refl)
    (JObj [("verbose", JBool true)]) (JObj [("verbose", JBool true)])
    name_schema (ZodError (JStr "object")) eq_refl eq_refl eq_refl eq_refl
    eq_refl).
Defined.

End RouterFacts.

(** ** Further properties of the router *)

Module RouterMoreFacts.
Import JS Contract Router Samples MoreSamples JSFacts RouterFacts.

(** Registration of a route of the contract: the underlying registrar gets
    the request validator first, the response validator second when it is
    enabled, and the caller's handlers last, as one array; so the functions
    Express registers are one or two validators followed by the caller's
    functions in the caller's order. *)
Theorem matched_route_is_guarded (Handler Registered : Type)
    (originalHandlerRegistrar : Method → string → list (Arg Handler) → Registered)
    apiDef config method path handlers d :
  apiDef_lookup apiDef path method = Some d →
  router_method originalHandlerRegistrar apiDef config method path handlers
  = originalHandlerRegistrar method path
      (Fn (RequestValidator d)
       :: (if attachResponseValidator config
           then [Fn (ResponseValidator d)] else [])
       ++ [Arr handlers])
  ∧ ∃ guards,
      flatten (Fn (RequestValidator d)
               :: (if attachResponseValidator config
                   then [Fn (ResponseValidator d)] else [])
               ++ [Arr handlers])
      = guards ++ flatten handlers
      ∧ Forall (λ m, is_validator m = true) guards
      ∧ head guards = Some (RequestValidator d)
      ∧ length guards = (if attachResponseValidator config then 2 else 1)%nat.
Proof.
  intros Hd. unfold router_method. rewrite Hd.
  destruct (attachResponseValidator config); (split; [done|]).
  - exists [RequestValidator d; ResponseValidator d].
    unfold flatten. cbn. rewrite app_nil_r. by repeat constructor.
  - exists [RequestValidator d].
    unfold flatten. cbn. rewrite app_nil_r. by repeat constructor.
Qed.

Lemma matched_route_is_guarded_witness :
  router_method (λ _ _ args, flatten args) paths
    {| attachResponseValidator := true |} M_get "/users/:id"
    [Fn (UserHandler 1%nat); Arr [Fn (UserHandler 2%nat)]]
  = [RequestValidator users_id_get; ResponseValidator users_id_get;
     UserHandler 1%nat; UserHandler 2%nat].
Proof.
  exact (proj1
    (matched_route_is_guarded nat (list (Middleware nat))
       (λ _ _ args, flatten args) paths {| attachResponseValidator := true |}
       M_get "/users/:id" [Fn (UserHandler 1%nat); Arr [Fn (UserHandler 2%nat)]]
       users_id_get eq_refl)).
Defined.

(** The request validator reads the path, query and body schemas of the
    route description and nothing else: two descriptions that agree on
    these three give the same outcome on every request, whatever their
    header schemas, responses and errors are.  In particular a declared
    header schema is never applied. *)
Theorem header_schema_is_never_applied z_object_empty d d' req res :
  path (parameters d) = path (parameters d') →
  query (parameters d) = query (parameters d') →
  request d = request d' →
  requestValidator z_object_empty d req res
  = requestValidator z_object_empty d' req res.
Proof.
  intros Hp Hq Hb. rewrite !requestValidator_eq.
  unfold path_schema, query_schema, query_input. by rewrite Hp, Hq, Hb.
Qed.

Lemma header_schema_is_never_applied_witness :
  requestValidator strip_unknown_keys users_id_get
    (make_request "7" "true" JNull ∅) (fresh_response 200)
  = requestValidator strip_unknown_keys users_id_get_strict_header
      (make_request "7" "true" JNull ∅) (fresh_response 200).
Proof.
  exact (header_schema_is_never_applied strip_unknown_keys users_id_get
           users_id_get_strict_header (make_request "7" "true" JNull ∅)
           (fresh_response 200) eq_refl eq_refl eq_refl).
Defined.

(** Whatever the request validator decides, it ends in exactly one call,
    and the request it hands over has the headers it came with and the
    response it hands over is the one it was given: it sends nothing and
    sets no status, also when validation fails. *)
Theorem requestValidator_frame z_object_empty d req res :
  ∃ ev, requestValidator z_object_empty d req res = [ev]
        ∧ req_headers (event_request ev) = req_headers req
        ∧ event_response ev = res.
Proof.
  rewrite requestValidator_eq.
  repeat match goal with
         | |- context [match ?x with _ => _ end] => destruct x
         end; eauto.
Qed.

(** An endpoint without a query schema: the query reaches the empty-shape
    schema as it came, ["true"] and ["false"] included, and the next handler
    is reached only with [req.query] equal to that schema's output; when the
    empty-shape schema rejects the query the error handler gets its failure
    and the request with the parsed path parameters. *)
Theorem undeclared_query_is_replaced z_object_empty d req res :
  query (parameters d) = None →
  (∀ req' res',
     Next req' res' ∈ requestValidator z_object_empty d req res →
     parse z_object_empty (req_query req) = Return (req_query req'))
  ∧ (∀ p e,
       parse (path_schema z_object_empty d) (req_params req) = Return p →
       parse z_object_empty (req_query req) = Throw e →
       requestValidator z_object_empty d req res
       = [ErrorHandler e (set_params p req) res])
  ∧ (path (parameters d) = None →
     ∀ req' res',
       Next req' res' ∈ requestValidator z_object_empty d req res →
       parse z_object_empty (req_params req) = Return (req_params req')).
Proof.
  intros Hq. rewrite requestValidator_eq.
  unfold path_schema, query_schema, query_input. rewrite Hq.
  split; [|split].
  - intros req' res'.
    repeat match goal with
           | |- context [match ?x with _ => _ end] => destruct x eqn:?
           end;
      intros ?%list_elem_of_singleton; by simplify_eq.
  - intros p e -> ->. by destruct req.
  - intros -> req' res'.
    repeat match goal with
           | |- context [match ?x with _ => _ end] => destruct x eqn:?
           end;
      intros ?%list_elem_of_singleton; by simplify_eq.
Qed.

Lemma undeclared_query_is_replaced_witness :
  parse strip_unknown_keys (JObj [("verbose", JStr "true")]) = Return (JObj []).
Proof.
  exact (proj1
    (undeclared_query_is_replaced strip_unknown_keys health_get
       (make_request "7" "true" JNull ∅) (fresh_response 200) eq_refl)
    {| req_params := JObj []; req_query := JObj [];
       req_body := JNull; req_headers := ∅ |}
    (fresh_response 200)
    (proj2 (list_elem_of_singleton _ _) eq_refl)).
Defined.

(** The content type is compared with ["application/json"] as a whole.
    Under any other value, a JSON type with parameters included, or without
    the header, a request that passes the path and query categories reaches
    the next handler with the body it came with, whatever body schema the
    endpoint declares. *)
Theorem other_content_types_skip_the_body_schema z_object_empty d req res p q0 q :
  req_headers req !! "content-type" ≠ Some "application/json" →
  parse (path_schema z_object_empty d) (req_params req) = Return p →
  query_input d (req_query req) = Return q0 →
  parse (query_schema z_object_empty d) q0 = Return q →
  requestValidator z_object_empty d req res
  = [Next {| req_params := p; req_query := q;
             req_body := req_body req; req_headers := req_headers req |} res].
Proof.
  intros Hct Hp Hq0 Hq. rewrite requestValidator_eq, Hp, Hq0, Hq.
  unfold is_json. by rewrite bool_decide_eq_false_2.
Qed.

Lemma other_content_types_skip_the_body_schema_witness :
  requestValidator strip_unknown_keys users_id_put
    (make_request "7" "true" (JStr "Jane") charset_headers) (fresh_response 200)
  = [Next {| req_params := JObj [("id", JNum 7)];
             req_query := JObj [("verbose", JBool true)];
             req_body := JStr "Jane"; req_headers := charset_headers |}
       (fresh_response 200)].
Proof.
  apply (other_content_types_skip_the_body_schema strip_unknown_keys
           users_id_put
           (make_request "7" "true" (JStr "Jane") charset_headers)
           (fresh_response 200) (JObj [("id", JNum 7)])
           (JObj [("verbose", JBool true)]) (JObj [("verbose", JBool true)]));
    [vm_compute; discriminate | reflexivity | reflexivity | reflexivity].
Defined.

(** A body that satisfies the schema declared for the status code the
    handler set: the replaced method is called with the schema's output (the
    handler's own body when that output is [null] or [undefined]) under the
    same status code, and what it returns is what [res.json] returns.  With
    the recording transport the parsed body goes on the wire, so fields the
    schema drops never leave the process. *)
Theorem in_spec_response_is_parsed_body
    (express_json : Response → JsVal → Response * Completion unit)
    d res body schema parsed :
  json res = ValidatingJson d ExpressJson →
  responses_lookup (responses d) (Code (statusCode res)) = Some schema →
  parse schema body = Return parsed →
  (∀ r u, express_json res (nullish_or parsed body) = (r, Return u) →
          res_json express_json res body = (r, Return u))
  ∧ res_json transmit res body
    = ({| statusCode := statusCode res; json := json res;
          wire := wire res ++ [(statusCode res, nullish_or parsed body)] |},
       Return ()).
Proof.
  intros Hjson Hs Hparse.
  assert (parseResponseBody d res body = Return (nullish_or parsed body)) as Hp.
  { unfold parseResponseBody. by rewrite Hs, Hparse. }
  split.
  - intros r u Hsend.
    rewrite (res_json_intercepting express_json d ExpressJson) by done.
    rewrite Hp. cbn [call_json]. by rewrite Hsend.
  - rewrite (res_json_intercepting transmit d ExpressJson) by done.
    by rewrite Hp.
Qed.

Lemma in_spec_response_is_parsed_body_witness :
  res_json transmit (intercepted users_id_get (fresh_response 200)) john
  = ({| statusCode := 200; json := ValidatingJson users_id_get ExpressJson;
        wire := [(200, john_on_the_wire)] |}, Return ()).
Proof.
  exact (proj2
    (in_spec_response_is_parsed_body transmit users_id_get
       (intercepted users_id_get (fresh_response 200)) john user_schema
       john_on_the_wire eq_refl eq_refl eq_refl)).
Defined.

(** A schema whose output is [null] or [undefined] does not empty the
    response: the handler's own body is transmitted, unparsed. *)
Theorem nullish_output_forwards_the_body d res body schema parsed :
  json res = ValidatingJson d ExpressJson →
  responses_lookup (responses d) (Code (statusCode res)) = Some schema →
  parse schema body = Return parsed →
  parsed = JNull ∨ parsed = JUndefined →
  res_json transmit res body
  = ({| statusCode := statusCode res; json := json res;
        wire := wire res ++ [(statusCode res, body)] |}, Return ()).
Proof.
  intros Hjson Hs Hparse Hnull.
  rewrite (res_json_intercepting transmit d ExpressJson) by done.
  unfold parseResponseBody. rewrite Hs, Hparse.
  by destruct Hnull as [-> | ->].
Qed.

Lemma nullish_output_forwards_the_body_witness :
  res_json transmit (intercepted health_get (fresh_response 200)) john
  = ({| statusCode := 200; json := ValidatingJson health_get ExpressJson;
        wire := [(200, john)] |}, Return ()).
Proof.
  exact (nullish_output_forwards_the_body health_get
           (intercepted health_get (fresh_response 200)) john undefined_schema
           JUndefined eq_refl eq_refl eq_refl (or_intror eq_refl)).
Defined.

(** The [try] of the validating method covers the send itself.  When the
    replaced method throws on a body that passed validation, the status is
    set to 500 and the replaced method is called once more, with the fixed
    body; what that second call does is the result.  On a transport that
    accepts one send per response, every later [res.json] therefore leaves
    the status at 500 and throws into the handler, whether its body is in
    the API specification or not. *)
Theorem transport_failure_is_answered_with_500
    (express_json : Response → JsVal → Response * Completion unit)
    d orig res body parsedBody r e :
  json res = ValidatingJson d orig →
  parseResponseBody d res body = Return parsedBody →
  call_json express_json orig res parsedBody = (r, Throw e) →
  res_json express_json res body
  = call_json express_json orig (status 500 r) out_of_spec_body
  ∧ (orig = ExpressJson → wire res ≠ [] →
     ∀ body',
       res_json transmit_once res body'
       = (status 500 res, Throw (OtherError (JStr "ERR_HTTP_HEADERS_SENT")))).
Proof.
  intros Hjson Hp Hsend. split.
  - rewrite (res_json_intercepting express_json d orig) by done.
    by rewrite Hp, Hsend.
  - intros -> Hsent body'.
    rewrite (res_json_intercepting transmit_once d ExpressJson) by done.
    cbn [call_json]. unfold transmit_once. cbn [status wire].
    destruct (wire res) as [|sent rest] eqn:Hw; [done|].
    destruct (parseResponseBody d res body'); cbn [status wire];
      by rewrite ?Hw.
Qed.

Lemma transport_failure_is_answered_with_500_witness :
  res_json transmit_once already_sent john
  = (status 500 already_sent, Throw (OtherError (JStr "ERR_HTTP_HEADERS_SENT")))
  ∧ res_json transmit_once already_sent (JStr "leak")
    = (status 500 already_sent,
       Throw (OtherError (JStr "ERR_HTTP_HEADERS_SENT"))).
Proof.
  pose proof (transport_failure_is_answered_with_500 transmit_once users_id_get
                ExpressJson already_sent john john_on_the_wire already_sent
                (OtherError (JStr "ERR_HTTP_HEADERS_SENT"))
                eq_refl eq_refl eq_refl) as [H1 H2].
  split.
  - exact H1.
  - apply (H2 eq_refl). discriminate.
Defined.

Lemma out_of_spec_response_is_500_aux d res body schema e :
  json res = ValidatingJson d ExpressJson →
  responses_lookup (responses d) (Code (statusCode res)) = Some schema →
  parse schema body = Throw e →
  ∃ res1, res_json transmit res body = (res1, Return ())
          ∧ json res1 = ValidatingJson d ExpressJson
          ∧ statusCode res1 = 500
          ∧ wire res1 = wire res ++ [(500, out_of_spec_body)].
Proof.
  intros Hjson Hs He.
  rewrite (res_json_intercepting transmit d ExpressJson) by done.
  unfold parseResponseBody. rewrite Hs, He. cbn [call_json].
  eexists. split; [reflexivity|]. by cbn.
Qed.

(** The status 500 set for an out-of-spec body stays on the response.  A
    body sent afterwards is validated against the schema declared for 500;
    when the endpoint declares none, it is transmitted unchecked under
    status 500. *)
Theorem status_500_is_sticky d res body schema e body' :
  json res = ValidatingJson d ExpressJson →
  responses_lookup (responses d) (Code (statusCode res)) = Some schema →
  parse schema body = Throw e →
  responses_lookup (responses d) (Code 500) = None →
  send_all transmit res [body; body']
  = ({| statusCode := 500; json := json res;
        wire := wire res ++ [(500, out_of_spec_body); (500, body')] |},
     Return ()).
Proof.
  intros Hjson Hs He H500. cbn [send_all].
  destruct (out_of_spec_response_is_500_aux d res body schema e Hjson Hs He)
    as [res1 (-> & Hj1 & Hc1 & Hw1)].
  rewrite (res_json_intercepting transmit d ExpressJson res1 body') by done.
  unfold parseResponseBody. rewrite Hc1, H500. cbn [call_json].
  unfold transmit. rewrite Hj1, Hc1, Hw1, Hjson. by rewrite <- app_assoc.
Qed.

Lemma status_500_is_sticky_witness :
  send_all transmit (intercepted users_id_get (fresh_response 200))
    [JStr "leak"; JStr "second leak"]
  = ({| statusCode := 500; json := ValidatingJson users_id_get ExpressJson;
        wire := [(500, out_of_spec_body); (500, JStr "second leak")] |},
     Return ()).
Proof.
  exact (status_500_is_sticky users_id_get
           (intercepted users_id_get (fresh_response 200)) (JStr "leak")
           user_schema (ZodError (JStr "object")) (JStr "second leak")
           eq_refl eq_refl eq_refl eq_refl).
Defined.

(** The loop over the query keeps the object's keys, their order and
    their distinctness, and running it again changes nothing: what the
    query schema sees has exactly the keys the request came with. *)
Theorem coerceBooleans_keeps_keys fields :
  wf_object fields →
  ∃ fields',
    coerceBooleans (JObj fields) = Return (JObj fields')
    ∧ Object_keys fields' = Object_keys fields
    ∧ wf_object fields'
    ∧ coerceBooleans (JObj fields') = Return (JObj fields').
Proof.
  intros Hwf.
  assert (Object_keys (map (λ kv, (kv.1, coerce_value kv.2)) fields)
          = Object_keys fields) as Hkeys.
  { unfold Object_keys. induction fields as [|[k v] fields IH]; [done|].
    cbn. f_equal. apply IH. by apply NoDup_cons in Hwf as [_ ?]. }
  assert (wf_object (map (λ kv, (kv.1, coerce_value kv.2)) fields)) as Hwf'.
  { unfold wf_object. by rewrite Hkeys. }
  eexists. split; [by apply coerceBooleans_object|].
  split; [done|]. split; [done|].
  rewrite coerceBooleans_object by done. do 2 f_equal.
  clear. induction fields as [|[k v] fields IH]; [done|].
  cbn [map fst snd]. f_equal; [|done]. f_equal.
  destruct v as [| |b|n|s|items|fs]; try done. cbn.
  by repeat (case_bool_decide; cbn).
Qed.

Lemma wf_two_keys :
  wf_object [("verbose", JStr "true"); ("page", JStr "2"); ("all", JStr "false")].
Proof. unfold wf_object. cbn. repeat constructor; set_solver. Defined.

Lemma coerceBooleans_keeps_keys_witness :
  ∃ fields',
    coerceBooleans
      (JObj [("verbose", JStr "true"); ("page", JStr "2"); ("all", JStr "false")])
    = Return (JObj fields')
    ∧ Object_keys fields' = ["verbose"; "page"; "all"]
    ∧ wf_object fields'
    ∧ coerceBooleans (JObj fields') = Return (JObj fields').
Proof.
  exact (coerceBooleans_keeps_keys
           [("verbose", JStr "true"); ("page", JStr "2"); ("all", JStr "false")]
           wf_two_keys).
Defined.

End RouterMoreFacts.

(** ** Further properties of the client *)

Module ClientMoreFacts.
Import JS Contract Client Samples Calls MoreSamples JSFacts.

Lemma append_empty_r (s : string) : s +:+ "" = s.
Proof. induction s as [|c s IH]; [done|]. by rewrite append_cons, IH. Qed.

Lemma foldl_replace_absent path url keys :
  (∀ key, key ∈ keys → ¬ occurs (":" +:+ key) url) →
  foldl (λ modifiedUrl key,
           match get_prop path key with
           | Some value => replace modifiedUrl (":" +:+ key) (toString value)
           | None => modifiedUrl
           end) url keys = url.
Proof.
  induction keys as [|k keys IH]; [done|]. intros Hno. cbn [foldl].
  assert (match get_prop path k with
          | Some value => replace url (":" +:+ k) (toString value)
          | None => url
          end = url) as ->.
  { destruct (get_prop path k); [|done]. apply replace_absent, Hno. left. }
  apply IH. intros key Hin. apply Hno. by right.
Qed.

(** Keys of the path object whose placeholder does not occur in the
    template are ignored: when none of them occurs, the URL is the template,
    whatever the values are, and no error is raised. *)
Theorem replacePathParams_without_placeholders url path :
  (∀ key, key ∈ Object_keys path → ¬ occurs (":" +:+ key) url) →
  replacePathParams url path = url.
Proof. intros Hno. unfold replacePathParams. by apply foldl_replace_absent. Qed.

Lemma replacePathParams_without_placeholders_witness :
  replacePathParams "/health" [("id", PNum 7); ("name", PStr "x")] = "/health".
Proof.
  apply replacePathParams_without_placeholders.
  intros key Hin (b & a & H).
  apply elem_of_cons in Hin as [-> | Hin].
  - exact (split_first_None ":id" "/health" eq_refl b a H).
  - apply list_elem_of_singleton in Hin as ->.
    exact (split_first_None ":name" "/health" eq_refl b a H).
Defined.

(** A string value is used as the replacement text of
    [String.prototype.replace], so dollar patterns in it are expanded: the
    value ["$&"] puts the placeholder back (the URL is unchanged) and the
    value ["$$"] inserts a single dollar sign. *)
Theorem dollar_patterns_in_path_values url key before after :
  first_occurrence (":" +:+ key) url before after →
  replacePathParams url [(key, PStr "$&")] = url
  ∧ replacePathParams url [(key, PStr "$$")] = before +:+ "$" +:+ after.
Proof.
  intros Hfirst. unfold replacePathParams.
  cbn [Object_keys fmap list_fmap fst foldl get_prop].
  rewrite bool_decide_eq_true_2 by done. cbn [toString].
  rewrite !(replace_first _ _ _ _ _ Hfirst).
  change (GetSubstitution (":" +:+ key) before after "$&")
    with ((":" +:+ key) +:+ "").
  change (GetSubstitution (":" +:+ key) before after "$$") with "$".
  rewrite append_empty_r. split; [|done].
  by destruct Hfirst as [-> _].
Qed.

Lemma first_occurrence_id : first_occurrence ":id" "/users/:id" "/users/" "".
Proof. apply (split_first_Some ":id" "/users/:id" "/users/" ""). reflexivity. Defined.

Lemma dollar_patterns_in_path_values_witness :
  replacePathParams "/users/:id" [("id", PStr "$&")] = "/users/:id"
  ∧ replacePathParams "/users/:id" [("id", PStr "$$")] = "/users/$".
Proof.
  exact (dollar_patterns_in_path_values "/users/:id" "id" "/users/" ""
           first_occurrence_id).
Defined.

(** A caught value is classified under at most one (method, path, status)
    triple. *)
Theorem isErrorOf_matches_one_triple err method path code method' path' code' :
  isErrorOf err method path code = true →
  isErrorOf err method' path' code' = true →
  method = method' ∧ path = path' ∧ code = code'.
Proof.
  destruct err as [[config|] [response|]|v]; cbn; try done;
    repeat case_bool_decide; cbn; try done.
  intros _ _. naive_solver.
Qed.

Lemma isErrorOf_matches_one_triple_witness :
  "get" = "get" ∧ "/users/:id" = "/users/:id" ∧ 404 = 404.
Proof.
  exact (isErrorOf_matches_one_triple not_found "get" "/users/:id" 404
           "get" "/users/:id" 404 eq_refl eq_refl).
Defined.

(** A call operation and the classifier together.  When Axios rejects a
    request with an error that carries the method and URL the request was
    made with, the error of [call method template config] is classified
    under (method, template, code) exactly when its response has that
    status and the URL built for the call is the template itself: after a
    substitution that changed the URL, the template no longer matches. *)
Theorem call_error_is_classified_by_url
    (axios_request : AxiosRequestConfig → AxiosResult)
    method template config err code :
  (∀ axiosConfig e, axios_request axiosConfig = RejectedWith e →
     ∃ response, e = AxiosError (Some (config_of_request axiosConfig)) response) →
  call axios_request method template config = Rejected err →
  isErrorOf err (method_name method) template code = true
  ↔ url (buildAxiosConfig method template config) = template
    ∧ ∃ response,
        err = AxiosError
                (Some (config_of_request (buildAxiosConfig method template config)))
                (Some response)
        ∧ Client.status response = code.
Proof.
  intros Hcarry Hcall. unfold call in Hcall.
  destruct (axios_request (buildAxiosConfig method template config))
    as [res|e] eqn:Hreq; [done|].
  injection Hcall as ->.
  destruct (Hcarry _ _ Hreq) as [response ->].
  assert (Client.method (buildAxiosConfig method template config) = method) as Hm.
  { by destruct config. }
  unfold isErrorOf, config_of_request. cbn. rewrite Hm.
  rewrite bool_decide_eq_true_2 by done. cbn. split.
  - destruct response as [response|]; cbn; repeat case_bool_decide; cbn;
      try done.
    intros _. split; [congruence|]. exists response. split; [done|congruence].
  - intros [Hurl (response' & [= ->] & Hcode)]. cbn.
    rewrite Hurl, Hcode. by rewrite !bool_decide_eq_true_2.
Qed.

Lemma axios_404_carries_config axiosConfig e :
  axios_404 axiosConfig = RejectedWith e →
  ∃ response, e = AxiosError (Some (config_of_request axiosConfig)) response.
Proof. intros [= <-]. eexists. reflexivity. Defined.

Lemma call_error_is_classified_by_url_witness :
  isErrorOf
    (AxiosError
       (Some (config_of_request
                (buildAxiosConfig M_get "/users/:id"
                   (Some (config_of_path [("id", PNum 7)])))))
       (Some {| Client.status := 404; err_data := JNull |}))
    "get" "/users/:id" 404 = true
  ↔ url (buildAxiosConfig M_get "/users/:id"
           (Some (config_of_path [("id", PNum 7)]))) = "/users/:id"
    ∧ ∃ response,
        AxiosError
          (Some (config_of_request
                   (buildAxiosConfig M_get "/users/:id"
                      (Some (config_of_path [("id", PNum 7)])))))
          (Some {| Client.status := 404; err_data := JNull |})
        = AxiosError
            (Some (config_of_request
                     (buildAxiosConfig M_get "/users/:id"
                        (Some (config_of_path [("id", PNum 7)])))))
            (Some response)
        ∧ Client.status response = 404.
Proof.
  exact (call_error_is_classified_by_url axios_404 M_get "/users/:id"
           (Some (config_of_path [("id", PNum 7)])) _ 404
           axios_404_carries_config eq_refl).
Defined.

End ClientMoreFacts.
